(** * Distributed TF node of dt-autolab-localization

    A shallow embedding of
    [packages/distributed_tf/src/duckiebot_distributed_tf_node.py]:
    the hostname sanitizer, the static-TF holder with its fetch and publish
    callbacks, and the odometry callback that turns dead-reckoning poses into
    relative transforms.

    Conventions of the embedding.
    - Python [float] (IEEE double) values are idealised as real numbers:
      every statement about translations, quaternions and distances below is
      a statement of exact real arithmetic, unless it names [Float64].
      Module [Float64] evaluates the gate of the odometry callback once more
      in binary64, where the rounding of the rotation matrix shows.
    - A callback is a function from the node's attributes (record [Node])
      and the answer of the outside world to the new attributes and the
      effects performed (messages handed to the publisher, log lines,
      an exception that escapes).
    - The semaphore around [_static_tfs] only brackets the dictionary
      accesses; the callbacks are modelled one at a time. *)

From Stdlib Require Import List String Ascii Bool Arith ZArith Lia.
From Stdlib Require Import Reals Lra Psatz.
From Stdlib Require PrimFloat.
Import ListNotations.

Local Open Scope string_scope.

(** ** [_sanitize_hostname]: [re.sub("[^0-9a-zA-Z]+", "", s)] *)

Module Sanitize.

(** The positive character set [0-9a-zA-Z] of the pattern. *)
Definition in_set_0_9a_zA_Z (c : ascii) : bool :=
  let n := nat_of_ascii c in
  ((48 <=? n)%nat && (n <=? 57)%nat) ||
  ((97 <=? n)%nat && (n <=? 122)%nat) ||
  ((65 <=? n)%nat && (n <=? 90)%nat).

(** One step of the pattern [[^0-9a-zA-Z]]: the negated class. *)
Definition matches_class (c : ascii) : bool := negb (in_set_0_9a_zA_Z c).

(** [re.sub] with the empty replacement, as the scanner runs it.
    [sub_scan] looks for the start of a match at the current position: a
    character of the class opens a match, any other character is copied to
    the output.  [sub_in_match] is inside a match of [[^0-9a-zA-Z]+]: the
    quantifier is greedy, so the match extends over every following
    character of the class; the whole match is replaced by the empty
    string and scanning resumes behind it. *)
Fixpoint sub_scan (s : string) : string :=
  match s with
  | EmptyString => EmptyString
  | String c rest =>
      if matches_class c then sub_in_match rest
      else String c (sub_scan rest)
  end
with sub_in_match (s : string) : string :=
  match s with
  | EmptyString => EmptyString
  | String c rest =>
      if matches_class c then sub_in_match rest
      else String c (sub_scan rest)
  end.

Definition _sanitize_hostname (s : string) : string := sub_scan s.

(** Reference reading of the result: the characters of [s] that are
    digits or letters, in their order. *)
Fixpoint keep_alnum (s : string) : string :=
  match s with
  | EmptyString => EmptyString
  | String c rest =>
      if in_set_0_9a_zA_Z c then String c (keep_alnum rest)
      else keep_alnum rest
  end.

Fixpoint all_chars (p : ascii -> bool) (s : string) : bool :=
  match s with
  | EmptyString => true
  | String c rest => p c && all_chars p rest
  end.

End Sanitize.

(** ** Numeric arrays ([numpy]) *)

Module Np.
Local Open Scope R_scope.

(** [np.array([a, b, c])] and [np.array([a, b, c, d])]. *)
Definition Array3 : Type := R * R * R.
Definition Array4 : Type := R * R * R * R.
(** Row-major matrices. *)
Definition Mat3 : Type := Array3 * Array3 * Array3.
Definition Mat4 : Type := Array4 * Array4 * Array4 * Array4.

(** Indexing [a[i]]; an index outside the array raises in Python and is
    never used by the code below, the model gives [0] there. *)
Definition get3 (a : Array3) (i : nat) : R :=
  let '(a0, a1, a2) := a in
  match i with 0%nat => a0 | 1%nat => a1 | 2%nat => a2 | _ => 0 end.

Definition get4 (a : Array4) (i : nat) : R :=
  let '(a0, a1, a2, a3) := a in
  match i with
  | 0%nat => a0 | 1%nat => a1 | 2%nat => a2 | 3%nat => a3 | _ => 0
  end.

(** [a - b] on arrays of length 3. *)
Definition sub3 (a b : Array3) : Array3 :=
  let '(a0, a1, a2) := a in
  let '(b0, b1, b2) := b in
  (a0 - b0, a1 - b1, a2 - b2).

(** [np.dot(a, b)] on two arrays of length 3, resp. 4. *)
Definition dot3 (a b : Array3) : R :=
  let '(a0, a1, a2) := a in
  let '(b0, b1, b2) := b in
  a0 * b0 + a1 * b1 + a2 * b2.

Definition dot4 (a b : Array4) : R :=
  let '(a0, a1, a2, a3) := a in
  let '(b0, b1, b2, b3) := b in
  a0 * b0 + a1 * b1 + a2 * b2 + a3 * b3.

(** [q *= s]. *)
Definition scale4 (s : R) (q : Array4) : Array4 :=
  let '(q0, q1, q2, q3) := q in (q0 * s, q1 * s, q2 * s, q3 * s).

(** [np.outer(a, b)[i, j]]. *)
Definition outer (a b : Array4) (i j : nat) : R := get4 a i * get4 b j.

Definition identity4 : Mat4 :=
  ((1, 0, 0, 0), (0, 1, 0, 0), (0, 0, 1, 0), (0, 0, 0, 1)).

(** [m[0:3][:, 0:3]]: the first three rows, then the first three columns
    of each. *)
Definition rows_0_3 (m : Mat4) : Array4 * Array4 * Array4 :=
  let '(r0, r1, r2, _) := m in (r0, r1, r2).

Definition cols_0_3 (r : Array4) : Array3 :=
  let '(c0, c1, c2, _) := r in (c0, c1, c2).

Definition block_0_3 (m : Mat4) : Mat3 :=
  let '(r0, r1, r2) := rows_0_3 m in (cols_0_3 r0, cols_0_3 r1, cols_0_3 r2).

(** [np.array(np.dot(m, v)).flatten()] for a 3x3 [np.matrix] and an array
    of length 3: the matrix-vector product, as a flat array. *)
Definition dot_mat_vec (m : Mat3) (v : Array3) : Array3 :=
  let '(r0, r1, r2) := m in (dot3 r0 v, dot3 r1 v, dot3 r2 v).

(** [np.linalg.norm(v)]: the Euclidean norm. *)
Definition norm (v : Array3) : R := sqrt (dot3 v v).



End Np.

(** ** [tf.transformations], quaternions in the order [(x, y, z, w)] *)

Module Tr.
Import Np.
Local Open Scope R_scope.

(** [_EPS = numpy.finfo(float).eps * 4.0], with [eps = 2^-52]. *)
Definition _EPS : R := / 2 ^ 52 * 4.

Definition quaternion_multiply (quaternion1 quaternion0 : Array4) : Array4 :=
  let '(x0, y0, z0, w0) := quaternion0 in
  let '(x1, y1, z1, w1) := quaternion1 in
  (  x1 * w0 + y1 * z0 - z1 * y0 + w1 * x0,
   - x1 * z0 + y1 * w0 + z1 * x0 + w1 * y0,
     x1 * y0 - y1 * x0 + z1 * w0 + w1 * z0,
   - x1 * x0 - y1 * y0 - z1 * z0 + w1 * w0).

Definition quaternion_conjugate (quaternion : Array4) : Array4 :=
  let '(x, y, z, w) := quaternion in (- x, - y, - z, w).

(** [q[i, j]] on the outer product. *)
Local Notation "q .[ i , j ]" := (q i%nat j%nat)
  (at level 1, format "q .[ i ,  j ]").

(** The homogeneous rotation matrix of a quaternion.  The quaternion is
    rescaled by [sqrt(2 / nq)] before the outer product, so the argument
    need not have norm one; below [_EPS] the identity is returned. *)
Definition quaternion_matrix (quaternion : Array4) : Mat4 :=
  let q := quaternion in
  let nq := dot4 q q in
  if Rlt_dec nq _EPS then identity4
  else
    let q := scale4 (sqrt (2 / nq)) q in
    let q := outer q q in
    ((1 - q.[1, 1] - q.[2, 2],     q.[0, 1] - q.[2, 3],     q.[0, 2] + q.[1, 3], 0),
     (    q.[0, 1] + q.[2, 3], 1 - q.[0, 0] - q.[2, 2],     q.[1, 2] - q.[0, 3], 0),
     (    q.[0, 2] - q.[1, 3],     q.[1, 2] + q.[0, 3], 1 - q.[0, 0] - q.[1, 1], 0),
     (                      0,                       0,                       0, 1)).


End Tr.

(** ** Messages *)

Module Msg.

(** [rospy.Time]: seconds and nanoseconds. *)
Record Time := { secs : Z; nsecs : Z }.

(** [std_msgs/Header] (the sequence number plays no role here). *)
Record Header := { stamp : Time; frame_id : string }.

(** [geometry_msgs]: [Vector3], [Point], [Quaternion], [Transform],
    [Pose], [TransformStamped]. *)
Record Vector3 := { v_x : R; v_y : R; v_z : R }.
Record Point := { p_x : R; p_y : R; p_z : R }.
Record Quaternion := { q_x : R; q_y : R; q_z : R; q_w : R }.
Record Transform := { translation : Vector3; rotation : Quaternion }.
Record Pose := { position : Point; orientation : Quaternion }.
Record TransformStamped :=
  { ts_header : Header; ts_child_frame_id : string; transform : Transform }.

(** [nav_msgs/Odometry]; the callback reads [header.stamp] and
    [pose.pose], the covariances and the twist are left out. *)
Record PoseWithCovariance := { pwc_pose : Pose }.
Record Odometry :=
  { header : Header; child_frame_id : string; pose : PoseWithCovariance }.

(** [autolab_msgs/AutolabReferenceFrame], with the two frame types the
    node uses, and [autolab_msgs/AutolabTransform]. *)
Inductive FrameType := TYPE_DUCKIEBOT_TAG | TYPE_DUCKIEBOT_FOOTPRINT.

Record AutolabReferenceFrame :=
  { time : Time; type : FrameType; name : string; robot : string }.

Record AutolabTransform :=
  { origin : AutolabReferenceFrame;
    target : AutolabReferenceFrame;
    is_fixed : bool;
    is_static : bool;
    at_transform : Transform }.

End Msg.

(** ** The dictionary [_static_tfs]

    A Python [dict] keyed by pairs of frame names; the values are
    [AutolabTransform] messages or [None].  It keeps insertion order, which
    is the order [values()] iterates in, so it is an association list. *)

Module Dict.
Import Msg.

Definition Key : Type := string * string.
Definition Value : Type := option AutolabTransform.
Definition t : Type := list (Key * Value).

Definition key_eqb (k1 k2 : Key) : bool :=
  String.eqb (fst k1) (fst k2) && String.eqb (snd k1) (snd k2).

(** [d[k]], [None] of the option when the key is missing. *)
Fixpoint get (d : t) (k : Key) : option Value :=
  match d with
  | [] => None
  | (k', v) :: rest => if key_eqb k' k then Some v else get rest k
  end.

(** [d[k] = v]: an existing key keeps its place, a new key goes last. *)
Fixpoint set (d : t) (k : Key) (v : Value) : t :=
  match d with
  | [] => [(k, v)]
  | (k', v') :: rest =>
      if key_eqb k' k then (k', v) :: rest else (k', v') :: set rest k v
  end.

(** [d.values()]. *)
Definition values (d : t) : list Value := map snd d.

End Dict.

(** ** The node *)

Module Node.
Import Msg Np Tr.

Definition MIN_DIST_ODOM : R := (2 / 10)%R.

(** A [rospy.Timer] handle. *)
Inductive Timer := Running | Stopped.

(** The attributes of a [DistributedTFNode].  A timer attribute is [None]
    as long as [__init__] has not assigned it; [_pose_last] is Python's
    [None] or an [Odometry] message. *)
Record t := {
  robot_hostname : string;
  map_name : string;
  tag_id : string;
  min_dist_odom : R;
  _tag_frame : string;
  _footprint_frame : string;
  _static_tfs : Dict.t;
  _tf_static_timer : option Timer;
  _pub_timer : option Timer;
  _pose_last : option Odometry
}.

Definition with_static_tfs (self : t) (d : Dict.t) : t :=
  {| robot_hostname := robot_hostname self; map_name := map_name self;
     tag_id := tag_id self; min_dist_odom := min_dist_odom self;
     _tag_frame := _tag_frame self;
     _footprint_frame := _footprint_frame self;
     _static_tfs := d;
     _tf_static_timer := _tf_static_timer self;
     _pub_timer := _pub_timer self;
     _pose_last := _pose_last self |}.

Definition with_timers (self : t) (fetch publish : option Timer) : t :=
  {| robot_hostname := robot_hostname self; map_name := map_name self;
     tag_id := tag_id self; min_dist_odom := min_dist_odom self;
     _tag_frame := _tag_frame self;
     _footprint_frame := _footprint_frame self;
     _static_tfs := _static_tfs self;
     _tf_static_timer := fetch;
     _pub_timer := publish;
     _pose_last := _pose_last self |}.

Definition with_pose_last (self : t) (p : option Odometry) : t :=
  {| robot_hostname := robot_hostname self; map_name := map_name self;
     tag_id := tag_id self; min_dist_odom := min_dist_odom self;
     _tag_frame := _tag_frame self;
     _footprint_frame := _footprint_frame self;
     _static_tfs := _static_tfs self;
     _tf_static_timer := _tf_static_timer self;
     _pub_timer := _pub_timer self;
     _pose_last := p |}.

(** The exceptions of [tf2_ros] a lookup can raise. *)
Inductive Tf2Exception :=
| LookupException
| ConnectivityException
| ExtrapolationException
| InvalidArgumentException
| TimeoutException.

(** What [lookup_transform(origin, target, rospy.Time())] answers. *)
Inductive LookupAnswer :=
| Found (transform : TransformStamped)
| Throws (e : Tf2Exception).

(** The TF buffer, as the node sees it at the time of one call. *)
Definition Buffer : Type := string -> string -> LookupAnswer.

(** What a callback does to the outside. *)
Inductive Effect :=
| Publish (msg : option AutolabTransform) (destination : string)
| LogInfo (text : string)
| LogWarn (text : string)
| LogErr (text : string).

(** A finished call: the attributes afterwards, the effects in order, and
    the exception that left the call, if one did. *)
Record Outcome := {
  node : t;
  effects : list Effect;
  raised : option Tf2Exception
}.

Definition returns (self : t) (es : list Effect) : Outcome :=
  {| node := self; effects := es; raised := None |}.

Definition raises (self : t) (es : list Effect) (e : Tf2Exception) : Outcome :=
  {| node := self; effects := es; raised := Some e |}.

(** The messages handed to the publisher, in order. *)
Fixpoint published (es : list Effect) : list (option AutolabTransform) :=
  match es with
  | [] => []
  | Publish msg _ :: rest => msg :: published rest
  | _ :: rest => published rest
  end.

(** [self._tf_static_timer.shutdown()] inside [try ... except
    BaseException: pass]: without the attribute the [AttributeError] is
    swallowed. *)
Definition shutdown_static_timer (self : t) : t :=
  match _tf_static_timer self with
  | Some _ => with_timers self (Some Stopped) (_pub_timer self)
  | None => self
  end.

(** The message built from a successful lookup. *)
Definition static_tf (self : t) (origin target : string)
    (transform : TransformStamped) : AutolabTransform :=
  {| Msg.origin :=
       {| time := stamp (ts_header transform);
          type := TYPE_DUCKIEBOT_TAG;
          name := origin;
          robot := robot_hostname self |};
     Msg.target :=
       {| time := stamp (ts_header transform);
          type := TYPE_DUCKIEBOT_FOOTPRINT;
          name := target;
          robot := robot_hostname self |};
     is_fixed := true;
     is_static := false;
     at_transform := Msg.transform transform |}.

Definition _fetch_static_tfs (buf : Buffer) (self : t) : Outcome :=
  let origin := _tag_frame self in
  let target := _footprint_frame self in
  match buf origin target with
  | Found transform =>
      let tf := static_tf self origin target transform in
      let self :=
        with_static_tfs self
          (Dict.set (_static_tfs self) (origin, target) (Some tf)) in
      let self := shutdown_static_timer self in
      returns self
        [LogInfo
           "All static TFs needed have been fetched. Disabling TF listener."]
  | Throws LookupException | Throws ExtrapolationException =>
      returns self
        [LogWarn
           ("Could not find a static TF [" ++ origin ++ "] -> ["
              ++ target ++ "]")]
  | Throws ConnectivityException => returns self []
  | Throws e => raises self [] e
  end.

Definition _publish_static_tfs (self : t) : Outcome :=
  let tfs := Dict.values (_static_tfs self) in
  returns self (map (fun tf => Publish tf (map_name self)) tfs).


(** The relative transform of [_cb_odometry], from the last pose and the
    new one: the quaternion [q_now_to_last], and the array
    [t_now_to_last] after [flatten()]. *)
Definition position_array (o : Odometry) : Array3 :=
  let p := position (pwc_pose (pose o)) in (p_x p, p_y p, p_z p).

Definition orientation_array (o : Odometry) : Array4 :=
  let o := orientation (pwc_pose (pose o)) in (q_x o, q_y o, q_z o, q_w o).

Definition q_now_to_last (pose_last pose_now : Odometry) : Array4 :=
  let q_now_to_world := orientation_array pose_now in
  let q_last_to_world := orientation_array pose_last in
  (* q_world_to_last = q_last_to_world; q_world_to_last[3] *= -1 *)
  let q_world_to_last :=
    let '(x, y, z, w) := q_last_to_world in (x, y, z, w * -1)%R in
  quaternion_multiply q_world_to_last q_now_to_world.

Definition t_now_to_last (pose_last pose_now : Odometry) : Array3 :=
  let t_now_to_world := position_array pose_now in
  let t_last_to_world := position_array pose_last in
  let now_to_last := quaternion_matrix (q_now_to_last pose_last pose_now) in
  let now_to_last := block_0_3 now_to_last in
  dot_mat_vec now_to_last (sub3 t_now_to_world t_last_to_world).

Definition odometry_tf (self : t) (pose_last pose_now : Odometry)
    : AutolabTransform :=
  let t_now_to_last := t_now_to_last pose_last pose_now in
  let q_now_to_last := q_now_to_last pose_last pose_now in
  let transform :=
    {| translation :=
         {| v_x := get3 t_now_to_last 0;
            v_y := get3 t_now_to_last 1;
            v_z := get3 t_now_to_last 2 |};
       rotation :=
         {| q_x := get4 q_now_to_last 0;
            q_y := get4 q_now_to_last 1;
            q_z := get4 q_now_to_last 2;
            q_w := get4 q_now_to_last 3 |} |} in
  {| Msg.origin :=
       {| time := stamp (header pose_last);
          type := TYPE_DUCKIEBOT_FOOTPRINT;
          name := _footprint_frame self;
          robot := robot_hostname self |};
     Msg.target :=
       {| time := stamp (header pose_now);
          type := TYPE_DUCKIEBOT_FOOTPRINT;
          name := _footprint_frame self;
          robot := robot_hostname self |};
     is_fixed := false;
     is_static := false;
     at_transform := transform |}.

Definition _cb_odometry (self : t) (pose_now : Odometry) : Outcome :=
  match _pose_last self with
  | None => returns (with_pose_last self (Some pose_now)) []
  | Some pose_last =>
      let dist := norm (t_now_to_last pose_last pose_now) in
      if Rlt_dec dist (min_dist_odom self) then returns self []
      else
        returns self
          [Publish (Some (odometry_tf self pose_last pose_now))
             (map_name self)]
  end.

(** [__init__]: the three parameters ([None] when [rospy.get_param]
    raises [KeyError]), then the first fetch and publish, the timers and
    the odometry subscription.  [Exit] is [exit(code)] behind a missing
    parameter; [Ready o] with [raised o = Some e] is a constructor left by
    the exception [e] of the first fetch. *)
Inductive Started :=
| Exit (code : Z) (log : list Effect)
| Ready (o : Outcome).

Definition __init__ (veh map tag : option string) (buf : Buffer) : Started :=
  match veh with
  | None =>
      Exit 1 [LogErr "The parameter ~veh was not set, the node will abort."]
  | Some veh =>
  match map with
  | None =>
      Exit 2 [LogErr "The parameter ~map was not set, the node will abort."]
  | Some map =>
  match tag with
  | None =>
      Exit 3
        [LogErr "The parameter ~tag_id was not set, the node will abort."]
  | Some tag =>
      let self :=
        {| robot_hostname := veh;
           map_name := Sanitize._sanitize_hostname map;
           tag_id := tag;
           min_dist_odom := MIN_DIST_ODOM;
           _tag_frame := "tag/" ++ tag;
           _footprint_frame := veh ++ "/footprint";
           _static_tfs := [((veh ++ "/footprint", "tag/" ++ tag), None)];
           _tf_static_timer := None;
           _pub_timer := None;
           _pose_last := None |} in
      if String.eqb tag "__NOTSET__" then Ready (returns self [])
      else
        let fetched := _fetch_static_tfs buf self in
        match raised fetched with
        | Some e => Ready fetched
        | None =>
            let sent := _publish_static_tfs (node fetched) in
            Ready
              (returns
                 (with_timers (node sent) (Some Running) (Some Running))
                 (effects fetched ++ effects sent))
        end
  end end end.

End Node.

(** ** The gate of [_cb_odometry] in binary64

    The same computation as [Node.t_now_to_last] and the comparison behind
    it, on IEEE doubles with round-to-nearest.  Scalar expressions are
    evaluated left to right, as Python does; the sums inside [numpy.dot]
    are taken left to right as well (the order NumPy uses is its own
    business, and the statements below only use inputs where every such
    sum has at most one term other than zero). *)

Module Float64.
Import PrimFloat.
Local Open Scope float_scope.

Definition Array3 : Type := float * float * float.
Definition Array4 : Type := float * float * float * float.
Definition Mat3 : Type := Array3 * Array3 * Array3.

(** [0.2], and [numpy.finfo(float).eps * 4.0]. *)
Definition MIN_DIST_ODOM : float := 0x1.999999999999ap-3.
Definition _EPS : float := 0x1p-50.

Definition sub3 (a b : Array3) : Array3 :=
  let '(a0, a1, a2) := a in
  let '(b0, b1, b2) := b in
  (a0 - b0, a1 - b1, a2 - b2).

Definition dot3 (a b : Array3) : float :=
  let '(a0, a1, a2) := a in
  let '(b0, b1, b2) := b in
  a0 * b0 + a1 * b1 + a2 * b2.

Definition dot4 (a b : Array4) : float :=
  let '(a0, a1, a2, a3) := a in
  let '(b0, b1, b2, b3) := b in
  a0 * b0 + a1 * b1 + a2 * b2 + a3 * b3.

Definition norm (v : Array3) : float := sqrt (dot3 v v).

Definition quaternion_multiply (quaternion1 quaternion0 : Array4) : Array4 :=
  let '(x0, y0, z0, w0) := quaternion0 in
  let '(x1, y1, z1, w1) := quaternion1 in
  (    x1 * w0 + y1 * z0 - z1 * y0 + w1 * x0,
   (- x1) * z0 + y1 * w0 + z1 * x0 + w1 * y0,
       x1 * y0 - y1 * x0 + z1 * w0 + w1 * z0,
   (- x1) * x0 - y1 * y0 - z1 * z0 + w1 * w0).

(** The upper left 3x3 block of [quaternion_matrix(quaternion)]. *)
Definition quaternion_matrix_block (quaternion : Array4) : Mat3 :=
  let nq := dot4 quaternion quaternion in
  if nq <? _EPS then ((1, 0, 0), (0, 1, 0), (0, 0, 1))
  else
    let s := sqrt (2 / nq) in
    let '(q0, q1, q2, q3) := quaternion in
    let '(q0, q1, q2, q3) := (q0 * s, q1 * s, q2 * s, q3 * s) in
    ((1 - q1 * q1 - q2 * q2,     q0 * q1 - q2 * q3,     q0 * q2 + q1 * q3),
     (    q0 * q1 + q2 * q3, 1 - q0 * q0 - q2 * q2,     q1 * q2 - q0 * q3),
     (    q0 * q2 - q1 * q3,     q1 * q2 + q0 * q3, 1 - q0 * q0 - q1 * q1)).

Definition dot_mat_vec (m : Mat3) (v : Array3) : Array3 :=
  let '(r0, r1, r2) := m in (dot3 r0 v, dot3 r1 v, dot3 r2 v).

Definition q_now_to_last (q_last_to_world q_now_to_world : Array4) : Array4 :=
  let q_world_to_last :=
    let '(x, y, z, w) := q_last_to_world in (x, y, z, w * (-1)) in
  quaternion_multiply q_world_to_last q_now_to_world.

Definition t_now_to_last (t_last_to_world : Array3) (q_last_to_world : Array4)
    (t_now_to_world : Array3) (q_now_to_world : Array4) : Array3 :=
  let now_to_last :=
    quaternion_matrix_block (q_now_to_last q_last_to_world q_now_to_world) in
  dot_mat_vec now_to_last (sub3 t_now_to_world t_last_to_world).

(** [dist], and whether the callback goes on to publish:
    [if (dist < self.min_dist_odom): return]. *)
Definition dist (t_last : Array3) (q_last : Array4)
    (t_now : Array3) (q_now : Array4) : float :=
  norm (t_now_to_last t_last q_last t_now q_now).



Definition no_turn : Array4 := (0, 0, 0, 1).
Definition half_turn_z : Array4 := (0, 0, 1, 0).

End Float64.

(** ** Runs and sample data *)

Module Run.
Import Msg Np Tr Node.

(** The fetch callback fired once per buffer state, in order; an exception
    that leaves a call ends that call only, the timer fires again. *)
Fixpoint fetch_many (bufs : list Buffer) (self : Node.t) : Node.t :=
  match bufs with
  | [] => self
  | buf :: rest => fetch_many rest (node (_fetch_static_tfs buf self))
  end.

(** The key [_fetch_static_tfs] stores under. *)
Definition fetch_key (self : Node.t) : Dict.Key :=
  (_tag_frame self, _footprint_frame self).

(** The lookup failures the callback has an [except] clause for. *)
Definition caught (e : Tf2Exception) : bool :=
  match e with
  | LookupException | ExtrapolationException | ConnectivityException => true
  | InvalidArgumentException | TimeoutException => false
  end.

(** A buffer that gives the same answer for every pair of frames. *)
Definition answers (a : LookupAnswer) : Buffer := fun _ _ => a.

Definition at_secs (s : Z) : Time := {| secs := s; nsecs := 0 |}.

(** An odometry sample. *)
Definition sample (s : Z) (xyz : Array3) (xyzw : Array4) : Odometry :=
  let '(x, y, z) := xyz in
  let '(qx, qy, qz, qw) := xyzw in
  {| header := {| stamp := at_secs s; frame_id := "odom" |};
     child_frame_id := "autobot01/footprint";
     pose :=
       {| pwc_pose :=
            {| position := {| p_x := x; p_y := y; p_z := z |};
               orientation :=
                 {| q_x := qx; q_y := qy; q_z := qz; q_w := qw |} |} |} |}.

(** A calibration as the buffer returns it. *)
Definition calibration (s : Z) (height : R) : TransformStamped :=
  {| ts_header := {| stamp := at_secs s; frame_id := "tag/42" |};
     ts_child_frame_id := "autobot01/footprint";
     Msg.transform :=
       {| translation := {| v_x := 0; v_y := 0; v_z := height |};
          rotation := {| q_x := 0; q_y := 0; q_z := 0; q_w := 1 |} |} |}.

(** The node [autobot01] with tag 42 on the map [auto-lab_01], as
    [__init__] leaves it when the two frames are not linked yet. *)
Definition autobot01 : Node.t :=
  {| robot_hostname := "autobot01";
     map_name := "autolab01";
     tag_id := "42";
     min_dist_odom := MIN_DIST_ODOM;
     _tag_frame := "tag/42";
     _footprint_frame := "autobot01/footprint";
     _static_tfs := [(("autobot01/footprint", "tag/42"), None)];
     _tf_static_timer := Some Running;
     _pub_timer := Some Running;
     _pose_last := None |}.

(** [autobot01] after a first odometry message. *)
Definition seen (pose_last : Odometry) : Node.t :=
  with_pose_last autobot01 (Some pose_last).

(** Unit quaternions: no rotation, and half a turn about the z axis. *)
Definition no_turn : Array4 := (0, 0, 0, 1)%R.
Definition half_turn_z : Array4 := (0, 0, 1, 0)%R.

(** The callbacks as the ROS runtime fires them: the fetch timer (with
    the state of the TF buffer at that moment), the publish timer, an
    odometry message. *)
Inductive Event :=
| FetchTimer (buf : Buffer)
| PublishTimer
| OdometryMsg (pose_now : Odometry).

Definition fire (ev : Event) (self : Node.t) : Outcome :=
  match ev with
  | FetchTimer buf => _fetch_static_tfs buf self
  | PublishTimer => _publish_static_tfs self
  | OdometryMsg pose_now => _cb_odometry self pose_now
  end.

(** A sequence of callbacks, one after the other: the node at the end and
    every effect, in order.  An exception that leaves a callback ends that
    callback only. *)
Fixpoint run (evs : list Event) (self : Node.t) : Node.t * list Effect :=
  match evs with
  | [] => (self, [])
  | ev :: rest =>
      let o := fire ev self in
      let '(self', es) := run rest (node o) in
      (self', (effects o ++ es)%list)
  end.

(** The same under the timers' own discipline: a [rospy.Timer] calls back
    only once it is created and until it is shut down. *)
Definition fire_if_scheduled (ev : Event) (self : Node.t) : Outcome :=
  match ev with
  | FetchTimer buf =>
      match _tf_static_timer self with
      | Some Running => _fetch_static_tfs buf self
      | _ => returns self []
      end
  | PublishTimer =>
      match _pub_timer self with
      | Some Running => _publish_static_tfs self
      | _ => returns self []
      end
  | OdometryMsg pose_now => _cb_odometry self pose_now
  end.

Fixpoint run_scheduled (evs : list Event) (self : Node.t)
    : Node.t * list Effect :=
  match evs with
  | [] => (self, [])
  | ev :: rest =>
      let o := fire_if_scheduled ev self in
      let '(self', es) := run_scheduled rest (node o) in
      (self', (effects o ++ es)%list)
  end.

(** The attributes [__init__] sets from the parameters. *)
Definition config (self : Node.t)
    : string * string * string * R * string * string :=
  (robot_hostname self, map_name self, tag_id self, min_dist_odom self,
   _tag_frame self, _footprint_frame self).

(** The key [__init__] puts the [None] under. *)
Definition placeholder_key (self : Node.t) : Dict.Key :=
  (_footprint_frame self, _tag_frame self).

(** [_static_tfs] holds the [None] of [__init__] alone, or followed by
    one fetched edge. *)
Definition placeholder_first (self : Node.t) : Prop :=
  _static_tfs self = [(placeholder_key self, None)] \/
  exists tf,
    _static_tfs self
    = [(placeholder_key self, None); (fetch_key self, Some tf)].

(** The destinations of the messages handed to the publisher. *)
Fixpoint destinations (es : list Effect) : list string :=
  match es with
  | [] => []
  | Publish _ destination :: rest => destination :: destinations rest
  | _ :: rest => destinations rest
  end.

(** The comparison [dist < self.min_dist_odom] of [_cb_odometry], with
    [dist] the norm of [t_now_to_last] as the callback computes it, as a
    boolean: [true] when the sample passes the gate. *)
Definition passes_gate (self : Node.t) (pose_last pose_now : Odometry) : bool :=
  if Rlt_dec (norm (t_now_to_last pose_last pose_now)) (min_dist_odom self)
  then false else true.


End Run.

(** ** The relative pose in the words of the specification *)

Module Claimed.
Import Msg Np Tr Node.
Local Open Scope R_scope.

(** A vector rotated by a quaternion: the vector part of [q v q*]. *)
Definition rotate (q : Array4) (v : Array3) : Array3 :=
  let '(v0, v1, v2) := v in
  let '(x, y, z, _) :=
    quaternion_multiply (quaternion_multiply q (v0, v1, v2, 0))
      (quaternion_conjugate q) in
  (x, y, z).

(** The world-frame displacement rotated by the conjugate of the rotation
    of the last pose. *)
Definition relative_translation (pose_last pose_now : Odometry) : Array3 :=
  rotate (quaternion_conjugate (orientation_array pose_last))
    (sub3 (position_array pose_now) (position_array pose_last)).

(** The conjugate of the rotation of the last pose, composed with the
    rotation of the new one. *)
Definition relative_rotation (pose_last pose_now : Odometry) : Array4 :=
  quaternion_multiply (quaternion_conjugate (orientation_array pose_last))
    (orientation_array pose_now).

Definition vector3_array (v : Vector3) : Array3 := (v_x v, v_y v, v_z v).

Definition quaternion_array (q : Quaternion) : Array4 :=
  (q_x q, q_y q, q_z q, q_w q).

Definition negate4 (q : Array4) : Array4 :=
  let '(x, y, z, w) := q in (- x, - y, - z, - w).

End Claimed.

(** * Properties *)

(** ** Sanitizing *)

Section SanitizeFacts.
Import Sanitize.

(** Both scanner states compute the filter. *)
Lemma sub_scan_in_match_keep (s : string) :
  sub_scan s = keep_alnum s /\ sub_in_match s = keep_alnum s.
Proof.
  induction s as [| c rest [IHscan IHin]]; [split; reflexivity |].
  cbn [sub_scan sub_in_match keep_alnum]. unfold matches_class.
  destruct (in_set_0_9a_zA_Z c); cbn [negb];
    rewrite ?IHscan, ?IHin; split; reflexivity.
Qed.

Lemma keep_alnum_all (s : string) :
  all_chars in_set_0_9a_zA_Z (keep_alnum s) = true.
Proof.
  induction s as [| c rest IH]; [reflexivity |].
  cbn [keep_alnum].
  destruct (in_set_0_9a_zA_Z c) eqn:Hc; [| exact IH].
  cbn [all_chars]. now rewrite Hc, IH.
Qed.

(** C9. [_sanitize_hostname] deletes exactly the characters outside
    [0-9], [a-z], [A-Z]: its result is the string of the digits and letters
    of the argument, in order, so it holds digits and letters only; and
    ["auto-bot_01!"] becomes ["autobot01"]. *)
Theorem sanitize_hostname_alnum :
  (forall s,
      _sanitize_hostname s = keep_alnum s /\
      all_chars in_set_0_9a_zA_Z (_sanitize_hostname s) = true) /\
  _sanitize_hostname "auto-bot_01!" = "autobot01".
Proof.
  split; [| reflexivity].
  intros s. unfold _sanitize_hostname.
  destruct (sub_scan_in_match_keep s) as [-> _].
  split; [reflexivity | apply keep_alnum_all].
Qed.

End SanitizeFacts.

(** ** The dictionary *)

Section DictFacts.
Import Msg.

Lemma key_eqb_refl (k : Dict.Key) : Dict.key_eqb k k = true.
Proof. unfold Dict.key_eqb. now rewrite !String.eqb_refl. Qed.

Lemma key_eqb_eq (k1 k2 : Dict.Key) : Dict.key_eqb k1 k2 = true <-> k1 = k2.
Proof.
  destruct k1 as [a1 b1], k2 as [a2 b2]. unfold Dict.key_eqb; cbn [fst snd].
  rewrite andb_true_iff, !String.eqb_eq.
  split; [intros [-> ->]; reflexivity | intros [= -> ->]; now split].
Qed.

Lemma get_set_same (d : Dict.t) k v : Dict.get (Dict.set d k v) k = Some v.
Proof.
  induction d as [| [k' v'] rest IH]; cbn [Dict.set Dict.get].
  - now rewrite key_eqb_refl.
  - destruct (Dict.key_eqb k' k) eqn:E; cbn [Dict.get]; rewrite E; auto.
Qed.

Lemma get_set_other (d : Dict.t) k k' v :
  k <> k' -> Dict.get (Dict.set d k v) k' = Dict.get d k'.
Proof.
  intros Hne.
  induction d as [| [k0 v0] rest IH]; cbn [Dict.set Dict.get].
  - destruct (Dict.key_eqb k k') eqn:E; [| reflexivity].
    apply key_eqb_eq in E. contradiction.
  - destruct (Dict.key_eqb k0 k) eqn:E; cbn [Dict.get].
    + apply key_eqb_eq in E. subst k0.
      destruct (Dict.key_eqb k k') eqn:E'; [| reflexivity].
      apply key_eqb_eq in E'. contradiction.
    + now rewrite IH.
Qed.

Lemma get_in_values (d : Dict.t) k v :
  Dict.get d k = Some v -> In v (Dict.values d).
Proof.
  induction d as [| [k' v'] rest IH]; cbn [Dict.get]; [discriminate |].
  unfold Dict.values; cbn [map snd].
  destruct (Dict.key_eqb k' k); [intros [= ->]; now left |].
  intros H. right. now apply IH.
Qed.

(** A store never removes a value stored under another key. *)
Lemma values_set_keeps (d : Dict.t) k k' v v' :
  k <> k' -> Dict.get d k' = Some v' -> In v' (Dict.values (Dict.set d k v)).
Proof.
  intros Hne Hget. apply get_in_values with (k := k').
  now rewrite get_set_other.
Qed.

End DictFacts.

(** ** Fetching and publishing the static TFs *)

Section StaticTfFacts.
Import Msg Node Run.

Lemma published_publish_static (self : Node.t) :
  published (effects (_publish_static_tfs self)) =
  Dict.values (_static_tfs self).
Proof.
  unfold _publish_static_tfs, returns, Dict.values; cbn [effects].
  induction (_static_tfs self) as [| [k v] rest IH]; [reflexivity |].
  cbn [map published snd]. now rewrite IH.
Qed.

(** The frame names are fixed by [__init__]; no fetch touches them. *)
Lemma fetch_key_fixed buf self :
  fetch_key (node (_fetch_static_tfs buf self)) = fetch_key self.
Proof.
  unfold _fetch_static_tfs, fetch_key.
  destruct (buf (_tag_frame self) (_footprint_frame self)) as [tr | []];
    cbn [node returns raises]; try reflexivity.
  unfold shutdown_static_timer; cbn.
  destruct (_tf_static_timer self); reflexivity.
Qed.

Lemma static_tfs_shutdown self :
  _static_tfs (shutdown_static_timer self) = _static_tfs self.
Proof.
  unfold shutdown_static_timer. destruct (_tf_static_timer self); reflexivity.
Qed.

(** What one fetch leaves under its key. *)
Lemma fetch_found buf self tr :
  buf (_tag_frame self) (_footprint_frame self) = Found tr ->
  Dict.get (_static_tfs (node (_fetch_static_tfs buf self))) (fetch_key self)
  = Some (Some (static_tf self (_tag_frame self) (_footprint_frame self) tr)).
Proof.
  intros Hb. unfold _fetch_static_tfs. rewrite Hb. cbn [node returns].
  rewrite static_tfs_shutdown. cbn [_static_tfs with_static_tfs].
  apply get_set_same.
Qed.

Lemma fetch_throws buf self e :
  buf (_tag_frame self) (_footprint_frame self) = Throws e ->
  node (_fetch_static_tfs buf self) = self.
Proof.
  intros Hb. unfold _fetch_static_tfs. rewrite Hb. destruct e; reflexivity.
Qed.

(** C7. A fetch whose lookup fails with [LookupException],
    [ExtrapolationException] or [ConnectivityException] stores nothing:
    the dictionary, and every other attribute of the node, is as before;
    the call returns normally, no exception leaves it, and nothing is
    published. *)
Theorem fetch_failure_stores_nothing buf self e :
  buf (_tag_frame self) (_footprint_frame self) = Throws e ->
  caught e = true ->
  let o := _fetch_static_tfs buf self in
  _static_tfs (node o) = _static_tfs self /\
  node o = self /\
  raised o = None /\
  published (effects o) = [].
Proof.
  intros Hb He. unfold _fetch_static_tfs. rewrite Hb.
  destruct e; try discriminate He; cbn; repeat split; reflexivity.
Qed.

Lemma fetch_failure_stores_nothing_witness :
  _static_tfs
    (node (_fetch_static_tfs (answers (Throws ConnectivityException))
             autobot01))
  = [(("autobot01/footprint", "tag/42"), None)].
Proof.
  apply (fetch_failure_stores_nothing
           (answers (Throws ConnectivityException)) autobot01
           ConnectivityException); reflexivity.
Defined.

(** C2, as the code has it.  Once an edge is stored under the key of the
    fetch, the entry is never cleared: after one more fetch the key holds
    the edge built from the new lookup when that lookup succeeds (the
    stored edge is replaced), and the edge stored before when it fails;
    after any number of fetches the key still holds an edge, and the
    publish callback sends it. *)
Theorem fetch_keeps_entry_present self e :
  Dict.get (_static_tfs self) (fetch_key self) = Some (Some e) ->
  (forall buf,
      let o := _fetch_static_tfs buf self in
      let e' :=
        match buf (_tag_frame self) (_footprint_frame self) with
        | Found tr =>
            static_tf self (_tag_frame self) (_footprint_frame self) tr
        | Throws _ => e
        end in
      Dict.get (_static_tfs (node o)) (fetch_key self) = Some (Some e') /\
      In (Some e') (published (effects (_publish_static_tfs (node o))))) /\
  (forall bufs,
      exists e',
        Dict.get (_static_tfs (fetch_many bufs self)) (fetch_key self)
        = Some (Some e') /\
        In (Some e')
           (published (effects (_publish_static_tfs (fetch_many bufs self))))).
Proof.
  intros Hget.
  assert (Hone : forall buf s e0,
             Dict.get (_static_tfs s) (fetch_key s) = Some (Some e0) ->
             Dict.get (_static_tfs (node (_fetch_static_tfs buf s)))
               (fetch_key s)
             = Some (Some
                  match buf (_tag_frame s) (_footprint_frame s) with
                  | Found tr =>
                      static_tf s (_tag_frame s) (_footprint_frame s) tr
                  | Throws _ => e0
                  end)).
  { intros buf s e0 H0.
    destruct (buf (_tag_frame s) (_footprint_frame s)) as [tr | ex] eqn:Hb.
    - now apply fetch_found.
    - now rewrite (fetch_throws _ _ _ Hb). }
  split.
  - intros buf o e'. subst o e'. split.
    + now apply Hone.
    + rewrite published_publish_static.
      apply get_in_values with (k := fetch_key self). now apply Hone.
  - intros bufs. revert self e Hget.
    induction bufs as [| buf rest IH]; intros self e Hget; cbn [fetch_many].
    + exists e. split; [exact Hget |].
      rewrite published_publish_static.
      now apply get_in_values with (k := fetch_key self).
    + specialize (Hone buf self e Hget).
      rewrite <- (fetch_key_fixed buf self) in Hone |- *.
      exact (IH _ _ Hone).
Qed.

End StaticTfFacts.

Section StaticTfScenarios.
Import Msg Node Run.

(** [autobot01] is what [__init__] builds while the frames are not
    linked; the first publish already happened there. *)
Lemma init_autobot01 :
  __init__ (Some "autobot01") (Some "auto-lab_01") (Some "42")
    (answers (Throws ConnectivityException))
  = Ready (returns autobot01 [Publish None "autolab01"]).
Proof. reflexivity. Qed.

Lemma fetch_keeps_entry_present_witness :
  let n1 :=
    node (_fetch_static_tfs (answers (Found (calibration 1 0))) autobot01) in
  exists e',
    Dict.get
      (_static_tfs (fetch_many [answers (Throws LookupException)] n1))
      (fetch_key n1)
    = Some (Some e').
Proof.
  intros n1.
  destruct (fetch_keeps_entry_present n1
              (static_tf autobot01 "tag/42" "autobot01/footprint"
                 (calibration 1 0)) eq_refl) as [_ Hmany].
  destruct (Hmany [answers (Throws LookupException)]) as [e' [He' _]].
  exists e'. exact He'.
Defined.

(** C2, as the specification has it, fails: the lookup inside [__init__]
    succeeds, the timer created afterwards fires, the second lookup
    succeeds with a later stamp, and the stored edge is replaced. *)
Lemma refetch_replaces_edge :
  match __init__ (Some "autobot01") (Some "auto-lab_01") (Some "42")
          (answers (Found (calibration 1 0))) with
  | Exit _ _ => False
  | Ready o1 =>
      let e1 :=
        static_tf autobot01 "tag/42" "autobot01/footprint" (calibration 1 0) in
      let o2 :=
        _fetch_static_tfs (answers (Found (calibration 61 0))) (node o1) in
      _tf_static_timer (node o1) = Some Running /\
      Dict.get (_static_tfs (node o1)) (fetch_key (node o1))
      = Some (Some e1) /\
      Dict.get (_static_tfs (node o2)) (fetch_key (node o1))
      <> Some (Some e1) /\
      ~ In (Some e1) (published (effects (_publish_static_tfs (node o2))))
  end.
Proof.
  cbn. repeat split.
  - intros H. injection H as H. discriminate H.
  - intros [H | [H | []]]; [discriminate H |].
    injection H as H. discriminate H.
Qed.

(** C3 at a node that has fetched nothing yet: the publish callback sends
    one message, the [None] stored as placeholder; after a successful
    fetch it sends two, the placeholder and the edge, because the edge is
    stored under the pair (tag, footprint) and the placeholder sits under
    (footprint, tag). *)
Theorem publish_static_sends_placeholder :
  published (effects (_publish_static_tfs autobot01)) = [None] /\
  (let n1 :=
     node (_fetch_static_tfs (answers (Found (calibration 1 0))) autobot01) in
   published (effects (_publish_static_tfs n1))
   = [None;
      Some (static_tf autobot01 "tag/42" "autobot01/footprint"
              (calibration 1 0))]).
Proof. split; reflexivity. Qed.

End StaticTfScenarios.

(** ** Quaternions and rotation matrices *)

(** Equality of arrays and matrices, component by component. *)
Ltac tuple_eq :=
  repeat match goal with |- (_, _) = (_, _) => apply f_equal2 end.

Section QuaternionFacts.
Import Np Tr Claimed.
Local Open Scope R_scope.

(** The doctest of [quaternion_multiply]. *)
Example quaternion_multiply_doctest :
  quaternion_multiply (1, -2, 3, 4) (-5, 6, 7, 8) = (-44, -14, 48, 28).
Proof. unfold quaternion_multiply. tuple_eq; ring. Qed.

Lemma _EPS_pos : 0 < _EPS.
Proof.
  unfold _EPS. apply Rmult_lt_0_compat; [| lra].
  apply Rinv_0_lt_compat, pow_lt. lra.
Qed.

Lemma _EPS_lt_1 : _EPS < 1.
Proof.
  unfold _EPS.
  assert (H : 8 <= 2 ^ 52).
  { replace 8 with (2 ^ 3) by ring.
    apply Rle_pow; [lra | lia]. }
  assert (Hinv : / 2 ^ 52 <= / 8).
  { apply Rinv_le_contravar; lra. }
  lra.
Qed.

(** The matrix away from zero, entry by entry, with [a = 2 / nq]. *)
Lemma quaternion_matrix_scaled (x y z w : R) :
  ~ dot4 (x, y, z, w) (x, y, z, w) < _EPS ->
  let a := 2 / dot4 (x, y, z, w) (x, y, z, w) in
  quaternion_matrix (x, y, z, w) =
  ((1 - a * (y * y) - a * (z * z),
    a * (x * y) - a * (z * w),
    a * (x * z) + a * (y * w), 0),
   (a * (x * y) + a * (z * w),
    1 - a * (x * x) - a * (z * z),
    a * (y * z) - a * (x * w), 0),
   (a * (x * z) - a * (y * w),
    a * (y * z) + a * (x * w),
    1 - a * (x * x) - a * (y * y), 0),
   (0, 0, 0, 1)).
Proof.
  intros Hnq a. unfold quaternion_matrix.
  destruct (Rlt_dec _ _) as [Hlt | _]; [contradiction |].
  fold a.
  assert (Ha : 0 <= a).
  { unfold a. apply Rlt_le, Rdiv_lt_0_compat; [lra |].
    pose proof _EPS_pos. lra. }
  pose proof (sqrt_sqrt a Ha) as Hs.
  set (s := sqrt a) in *. clearbody s. clearbody a.
  unfold outer, scale4, get4. subst a.
  tuple_eq; ring.
Qed.

(** In exact arithmetic the rotation block is orthogonal: it keeps the
    squared length of every vector, whatever the quaternion.  (In binary64
    the rescaling and the outer product are rounded and the block is
    orthogonal up to rounding only, see [Float64].) *)
Lemma rotation_block_isometry (q : Array4) (v : Array3) :
  let m := block_0_3 (quaternion_matrix q) in
  dot3 (dot_mat_vec m v) (dot_mat_vec m v) = dot3 v v.
Proof.
  destruct q as [[[x y] z] w], v as [[v0 v1] v2]. cbv zeta.
  destruct (Rlt_dec (dot4 (x, y, z, w) (x, y, z, w)) _EPS) as [Hlt | Hge].
  - unfold quaternion_matrix.
    destruct (Rlt_dec _ _) as [_ | Hn]; [| contradiction].
    cbn. ring.
  - rewrite (quaternion_matrix_scaled x y z w Hge).
    assert (Hnq : x * x + y * y + z * z + w * w <> 0).
    { pose proof _EPS_pos. unfold dot4 in Hge. lra. }
    cbn. field. exact Hnq.
Qed.

(** A quaternion and its negation give the same matrix. *)
Lemma quaternion_matrix_negate (q : Array4) :
  quaternion_matrix (negate4 q) = quaternion_matrix q.
Proof.
  destruct q as [[[x y] z] w]. unfold negate4.
  assert (Hdot : dot4 (- x, - y, - z, - w) (- x, - y, - z, - w)
                 = dot4 (x, y, z, w) (x, y, z, w)) by (cbn; ring).
  destruct (Rlt_dec (dot4 (x, y, z, w) (x, y, z, w)) _EPS) as [Hlt | Hge].
  - unfold quaternion_matrix. rewrite Hdot.
    destruct (Rlt_dec _ _) as [_ | Hn]; [reflexivity | contradiction].
  - rewrite (quaternion_matrix_scaled x y z w Hge).
    rewrite quaternion_matrix_scaled by now rewrite Hdot.
    rewrite Hdot. cbv zeta. tuple_eq; ring.
Qed.


End QuaternionFacts.

(** ** The odometry callback *)

Section OdometryFacts.
Import Msg Np Tr Node Run Claimed.
Local Open Scope R_scope.

(** In exact arithmetic the distance of the gate is the length of the
    displacement between the two positions. *)
Lemma norm_t_now_to_last (pose_last pose_now : Odometry) :
  norm (t_now_to_last pose_last pose_now) =
  norm (sub3 (position_array pose_now) (position_array pose_last)).
Proof.
  unfold norm, t_now_to_last. now rewrite rotation_block_isometry.
Qed.

Lemma norm_ge (d : R) (v : Array3) :
  0 <= d -> d * d <= dot3 v v -> d <= norm v.
Proof.
  intros Hd Hsq. unfold norm.
  apply Rle_trans with (sqrt (d * d)).
  - rewrite (sqrt_square d Hd). lra.
  - now apply sqrt_le_1_alt.
Qed.

Lemma norm_lt (d : R) (v : Array3) :
  0 <= d -> dot3 v v < d * d -> norm v < d.
Proof.
  intros Hd Hsq. unfold norm.
  apply Rlt_le_trans with (sqrt (d * d)).
  - apply sqrt_lt_1_alt. split; [| exact Hsq].
    destruct v as [[v0 v1] v2]. cbn. nra.
  - rewrite (sqrt_square d Hd). lra.
Qed.

(** The two branches behind the first call. *)
Lemma cb_odometry_suppressed self pose_last pose_now :
  _pose_last self = Some pose_last ->
  norm (t_now_to_last pose_last pose_now) < min_dist_odom self ->
  _cb_odometry self pose_now = returns self [].
Proof.
  intros Hlast Hlt. unfold _cb_odometry. rewrite Hlast.
  destruct (Rlt_dec _ _) as [_ | Hn]; [reflexivity | contradiction].
Qed.

Lemma cb_odometry_emitted self pose_last pose_now :
  _pose_last self = Some pose_last ->
  ~ norm (t_now_to_last pose_last pose_now) < min_dist_odom self ->
  _cb_odometry self pose_now =
  returns self
    [Publish (Some (odometry_tf self pose_last pose_now)) (map_name self)].
Proof.
  intros Hlast Hge. unfold _cb_odometry. rewrite Hlast.
  destruct (Rlt_dec _ _) as [Hlt | _]; [contradiction | reflexivity].
Qed.

(** After the first call the callback never assigns [_pose_last]. *)
Lemma cb_odometry_keeps_pose_last self pose_last pose_now :
  _pose_last self = Some pose_last ->
  node (_cb_odometry self pose_now) = self.
Proof.
  intros Hlast. unfold _cb_odometry. rewrite Hlast.
  destruct (Rlt_dec _ _); reflexivity.
Qed.

(** C8. On a node that has seen no pose yet, the callback publishes
    nothing, has no other effect, and stores the pose it was given in
    [_pose_last]. *)
Theorem first_observation_stores_pose self pose_now :
  _pose_last self = None ->
  let o := _cb_odometry self pose_now in
  effects o = [] /\ raised o = None /\ _pose_last (node o) = Some pose_now.
Proof.
  intros Hnone. unfold _cb_odometry. rewrite Hnone.
  repeat split; reflexivity.
Qed.

Lemma first_observation_stores_pose_witness :
  _pose_last autobot01 = None /\
  effects (_cb_odometry autobot01 (sample 0 (0, 0, 0) (0, 0, 0, 1))) = [].
Proof.
  split; [reflexivity |].
  apply (first_observation_stores_pose autobot01
           (sample 0 (0, 0, 0) (0, 0, 0, 1))).
  reflexivity.
Defined.

(** C6. Behind the first call, with [dist] the Euclidean norm of the
    relative translation the callback computes: below 0.2 nothing is
    published; from 0.2 on exactly one edge is published, and the norm of
    its translation is [dist]. *)
Theorem gate_on_translation_norm self pose_last pose_now :
  _pose_last self = Some pose_last ->
  min_dist_odom self = MIN_DIST_ODOM ->
  let dist := norm (t_now_to_last pose_last pose_now) in
  let o := _cb_odometry self pose_now in
  (dist < 2 / 10 -> published (effects o) = []) /\
  (dist >= 2 / 10 ->
   exists tf,
     published (effects o) = [Some tf] /\
     norm (vector3_array (translation (at_transform tf))) = dist).
Proof.
  intros Hlast Hmin dist o. subst dist o. split; intros Hd.
  - rewrite (cb_odometry_suppressed self pose_last pose_now Hlast);
      [reflexivity |].
    rewrite Hmin. exact Hd.
  - rewrite (cb_odometry_emitted self pose_last pose_now Hlast).
    + eexists. split; [reflexivity |].
      unfold odometry_tf, vector3_array; cbn [at_transform translation v_x v_y v_z].
      destruct (t_now_to_last pose_last pose_now) as [[t0 t1] t2].
      reflexivity.
    + rewrite Hmin. unfold MIN_DIST_ODOM. lra.
Qed.

End OdometryFacts.

Section OdometryGate.
Import Msg Np Tr Node Run Claimed.
Local Open Scope R_scope.

Lemma gate_on_translation_norm_witness :
  published
    (effects
       (_cb_odometry (seen (sample 0 (0, 0, 0) no_turn))
          (sample 1 (1 / 10, 0, 0) no_turn)))
  = [].
Proof.
  apply (gate_on_translation_norm (seen (sample 0 (0, 0, 0) no_turn))
           (sample 0 (0, 0, 0) no_turn) (sample 1 (1 / 10, 0, 0) no_turn)
           eq_refl eq_refl).
  rewrite norm_t_now_to_last. apply norm_lt; [lra | cbn; lra].
Defined.




End OdometryGate.

Section OdometryEdges.
Import Msg Np Tr Node Run Claimed.
Local Open Scope R_scope.

(** The gate on nodes with the threshold of [__init__], decided on the
    squared length of the displacement. *)
Lemma emitted_when_far self pose_last pose_now :
  _pose_last self = Some pose_last ->
  min_dist_odom self = MIN_DIST_ODOM ->
  (let d := sub3 (position_array pose_now) (position_array pose_last) in
   4 / 100 <= dot3 d d) ->
  _cb_odometry self pose_now =
  returns self
    [Publish (Some (odometry_tf self pose_last pose_now)) (map_name self)].
Proof.
  intros Hlast Hmin Hfar. apply cb_odometry_emitted; [exact Hlast |].
  rewrite norm_t_now_to_last, Hmin. apply Rle_not_lt.
  unfold MIN_DIST_ODOM. apply norm_ge; [lra |]. cbv zeta in Hfar. lra.
Qed.


(** The quaternion of the edge, read back as an array. *)
Lemma odometry_tf_rotation self pose_last pose_now :
  quaternion_array
    (rotation (at_transform (odometry_tf self pose_last pose_now)))
  = q_now_to_last pose_last pose_now.
Proof.
  unfold odometry_tf, quaternion_array; cbn [at_transform rotation q_x q_y q_z q_w].
  destruct (q_now_to_last pose_last pose_now) as [[[x y] z] w]. reflexivity.
Qed.

Lemma odometry_tf_translation self pose_last pose_now :
  vector3_array
    (translation (at_transform (odometry_tf self pose_last pose_now)))
  = t_now_to_last pose_last pose_now.
Proof.
  unfold odometry_tf, vector3_array; cbn [at_transform translation v_x v_y v_z].
  destruct (t_now_to_last pose_last pose_now) as [[t0 t1] t2]. reflexivity.
Qed.

(** Flipping the sign of [w] gives the negated conjugate, so the product
    is the negated composition. *)
Lemma q_now_to_last_negated pose_last pose_now :
  q_now_to_last pose_last pose_now =
  negate4 (relative_rotation pose_last pose_now).
Proof.
  unfold q_now_to_last, relative_rotation.
  destruct (orientation_array pose_last) as [[[x1 y1] z1] w1].
  destruct (orientation_array pose_now) as [[[x0 y0] z0] w0].
  unfold quaternion_conjugate, quaternion_multiply, negate4.
  tuple_eq; ring.
Qed.

(** C5, as the code has it.  The rotation of a published edge is the
    component-wise negation of [conjugate(last rotation)] composed with
    the new rotation: the code flips the sign of [w], not of [x], [y],
    [z].  The two quaternions have the same rotation matrix. *)
Theorem emitted_rotation_negated_composition self pose_last pose_now tf :
  _pose_last self = Some pose_last ->
  published (effects (_cb_odometry self pose_now)) = [Some tf] ->
  quaternion_array (rotation (at_transform tf))
  = negate4 (relative_rotation pose_last pose_now) /\
  quaternion_matrix (quaternion_array (rotation (at_transform tf)))
  = quaternion_matrix (relative_rotation pose_last pose_now).
Proof.
  intros Hlast Hpub. unfold _cb_odometry in Hpub. rewrite Hlast in Hpub.
  destruct (Rlt_dec _ _) as [Hlt | Hge]; cbn in Hpub; [discriminate Hpub |].
  injection Hpub as <-.
  rewrite odometry_tf_rotation, q_now_to_last_negated.
  split; [reflexivity | apply quaternion_matrix_negate].
Qed.

(** One unit forward without turning: an edge is published. *)
Lemma unit_step_emitted :
  let pose_last := sample 0 (0, 0, 0) no_turn in
  let pose_now := sample 1 (1, 0, 0) no_turn in
  published (effects (_cb_odometry (seen pose_last) pose_now))
  = [Some (odometry_tf (seen pose_last) pose_last pose_now)].
Proof.
  intros pose_last pose_now.
  rewrite (emitted_when_far (seen pose_last) pose_last pose_now);
    [reflexivity | reflexivity | reflexivity | cbn; lra].
Qed.

Lemma emitted_rotation_negated_composition_witness :
  let pose_last := sample 0 (0, 0, 0) no_turn in
  let pose_now := sample 1 (1, 0, 0) no_turn in
  quaternion_array
    (rotation
       (at_transform (odometry_tf (seen pose_last) pose_last pose_now)))
  = negate4 (relative_rotation pose_last pose_now).
Proof.
  intros pose_last pose_now.
  apply (emitted_rotation_negated_composition (seen pose_last) pose_last
           pose_now (odometry_tf (seen pose_last) pose_last pose_now)
           eq_refl unit_step_emitted).
Defined.

(** C5, as the specification has it, fails: one unit forward without
    turning publishes an edge whose rotation is [(0, 0, 0, -1)], and the
    composition of the conjugate with the new rotation is
    [(0, 0, 0, 1)]. *)
Lemma emitted_rotation_is_not_composition :
  let pose_last := sample 0 (0, 0, 0) no_turn in
  let pose_now := sample 1 (1, 0, 0) no_turn in
  exists tf,
    published (effects (_cb_odometry (seen pose_last) pose_now)) = [Some tf] /\
    quaternion_array (rotation (at_transform tf)) = (0, 0, 0, -1) /\
    relative_rotation pose_last pose_now = (0, 0, 0, 1) /\
    quaternion_array (rotation (at_transform tf))
    <> relative_rotation pose_last pose_now.
Proof.
  intros pose_last pose_now.
  exists (odometry_tf (seen pose_last) pose_last pose_now).
  assert (Hcode : quaternion_array
                    (rotation
                       (at_transform
                          (odometry_tf (seen pose_last) pose_last pose_now)))
                  = (0, 0, 0, -1)).
  { rewrite odometry_tf_rotation. cbn. tuple_eq; ring. }
  assert (Hspec : relative_rotation pose_last pose_now = (0, 0, 0, 1)).
  { cbn. tuple_eq; ring. }
  repeat split; [exact unit_step_emitted | exact Hcode | exact Hspec |].
  rewrite Hcode, Hspec. intros [= H]. lra.
Qed.

End OdometryEdges.

Section OdometryDefects.
Import Msg Np Tr Node Run Claimed.
Local Open Scope R_scope.

(** C1 on the poses x = 0, 0.3, 0.4 along a straight line.  The second
    pose is 0.3 from the first, so an edge is published, and [_pose_last]
    still holds the first pose afterwards, not the second.  The third pose
    is 0.1 from the second, below the threshold, and is published all the
    same, as an edge from the first pose. *)
Theorem reference_pose_not_advanced :
  let p0 := sample 0 (0, 0, 0) no_turn in
  let p1 := sample 1 (3 / 10, 0, 0) no_turn in
  let p2 := sample 2 (4 / 10, 0, 0) no_turn in
  let o0 := _cb_odometry autobot01 p0 in
  let o1 := _cb_odometry (node o0) p1 in
  let o2 := _cb_odometry (node o1) p2 in
  published (effects o1) = [Some (odometry_tf (seen p0) p0 p1)] /\
  _pose_last (node o1) = Some p0 /\
  _pose_last (node o1) <> Some p1 /\
  norm (sub3 (position_array p2) (position_array p1)) < 2 / 10 /\
  published (effects o2) = [Some (odometry_tf (seen p0) p0 p2)].
Proof.
  intros p0 p1 p2 o0 o1 o2.
  assert (H0 : node o0 = seen p0) by reflexivity.
  assert (H1 : o1 = returns (seen p0)
                      [Publish (Some (odometry_tf (seen p0) p0 p1))
                         (map_name (seen p0))]).
  { subst o1. rewrite H0.
    apply emitted_when_far; [reflexivity | reflexivity | cbn; lra]. }
  assert (H2 : o2 = returns (seen p0)
                      [Publish (Some (odometry_tf (seen p0) p0 p2))
                         (map_name (seen p0))]).
  { subst o2. rewrite H1. cbn [node returns].
    apply emitted_when_far; [reflexivity | reflexivity | cbn; lra]. }
  rewrite H1, H2. cbn [node returns effects published _pose_last seen with_pose_last].
  repeat split.
  - intros H.
    apply (f_equal (fun p => match p with
                             | Some p => secs (stamp (header p))
                             | None => 0%Z
                             end)) in H.
    discriminate H.
  - apply norm_lt; [lra | cbn; lra].
Qed.

(** C4 on a robot that moves one unit along x and turns half a turn about
    z.  The last pose has no rotation, so the displacement rotated by the
    conjugate of its rotation is the displacement itself, [(1, 0, 0)];
    the published translation is [(-1, 0, 0)], the displacement under the
    matrix of the relative rotation [q_now_to_last]. *)
Theorem translation_rotated_by_relative_rotation :
  let pose_last := sample 0 (0, 0, 0) no_turn in
  let pose_now := sample 1 (1, 0, 0) half_turn_z in
  let tf := odometry_tf (seen pose_last) pose_last pose_now in
  published (effects (_cb_odometry (seen pose_last) pose_now)) = [Some tf] /\
  vector3_array (translation (at_transform tf)) = (-1, 0, 0) /\
  relative_translation pose_last pose_now = (1, 0, 0).
Proof.
  intros pose_last pose_now tf. repeat split.
  - rewrite (emitted_when_far (seen pose_last) pose_last pose_now);
      [reflexivity | reflexivity | reflexivity | cbn; lra].
  - subst tf. rewrite odometry_tf_translation. unfold t_now_to_last.
    assert (Hq : q_now_to_last pose_last pose_now = (0, 0, -1, 0)).
    { cbn. tuple_eq; ring. }
    rewrite Hq.
    assert (Hnq : ~ dot4 (0, 0, -1, 0) (0, 0, -1, 0) < _EPS).
    { pose proof _EPS_lt_1. cbn. lra. }
    rewrite (quaternion_matrix_scaled 0 0 (-1) 0 Hnq).
    cbn. tuple_eq; field.
  - cbn. tuple_eq; ring.
Qed.

End OdometryDefects.

(** * Further properties *)

(** ** More on sanitizing *)

Section SanitizeAlgebra.
Import Sanitize.

Lemma sanitize_keep (s : string) : _sanitize_hostname s = keep_alnum s.
Proof. unfold _sanitize_hostname. now destruct (sub_scan_in_match_keep s). Qed.

Lemma keep_alnum_append (a b : string) :
  keep_alnum (a ++ b) = keep_alnum a ++ keep_alnum b.
Proof.
  induction a as [| c rest IH]; [reflexivity |].
  cbn [append keep_alnum].
  destruct (in_set_0_9a_zA_Z c); cbn [append]; now rewrite IH.
Qed.

Lemma keep_alnum_fixed (s : string) :
  all_chars in_set_0_9a_zA_Z s = true -> keep_alnum s = s.
Proof.
  induction s as [| c rest IH]; [reflexivity |].
  cbn [all_chars keep_alnum]. intros H.
  apply andb_true_iff in H as [Hc Hrest]. now rewrite Hc, IH.
Qed.

Lemma keep_alnum_length (s : string) :
  (String.length (keep_alnum s) <= String.length s)%nat.
Proof.
  induction s as [| c rest IH]; [apply Nat.le_refl |].
  cbn [keep_alnum]. destruct (in_set_0_9a_zA_Z c); cbn [String.length]; lia.
Qed.

Lemma string_length_append (a b : string) :
  String.length (a ++ b) = (String.length a + String.length b)%nat.
Proof.
  induction a as [| c rest IH]; [reflexivity |].
  cbn [append String.length]. now rewrite IH.
Qed.

(** Sanitizing a sanitized name changes nothing. *)
Theorem sanitize_idempotent (s : string) :
  _sanitize_hostname (_sanitize_hostname s) = _sanitize_hostname s.
Proof.
  rewrite !sanitize_keep. apply keep_alnum_fixed, keep_alnum_all.
Qed.

(** Sanitizing works piece by piece, although a run of deleted characters
    may straddle the seam. *)
Theorem sanitize_append (a b : string) :
  _sanitize_hostname (a ++ b) = _sanitize_hostname a ++ _sanitize_hostname b.
Proof. rewrite !sanitize_keep. apply keep_alnum_append. Qed.

(** The result is never longer than the argument; a name is left as it
    is exactly when all its characters are in [0-9a-zA-Z], and exactly
    when the length is kept. *)
Theorem sanitize_fixed_iff (s : string) :
  (String.length (_sanitize_hostname s) <= String.length s)%nat /\
  (_sanitize_hostname s = s <-> all_chars in_set_0_9a_zA_Z s = true) /\
  (_sanitize_hostname s = s <->
   String.length (_sanitize_hostname s) = String.length s).
Proof.
  rewrite sanitize_keep. split; [apply keep_alnum_length |]. split.
  - split; [| apply keep_alnum_fixed].
    intros H. rewrite <- H. apply keep_alnum_all.
  - split; [intros H; now rewrite H |].
    induction s as [| c rest IH]; [reflexivity |].
    cbn [keep_alnum]. destruct (in_set_0_9a_zA_Z c); cbn [String.length].
    + intros [= H]. now rewrite IH.
    + intros H. pose proof (keep_alnum_length rest). lia.
Qed.

(** Names that differ only in characters outside [0-9a-zA-Z] collide: such
    a character, put anywhere into a name, leaves the result the same. *)
Theorem sanitize_collides (a b : string) (c : ascii) :
  in_set_0_9a_zA_Z c = false ->
  _sanitize_hostname (a ++ String c b) = _sanitize_hostname (a ++ b) /\
  a ++ String c b <> a ++ b.
Proof.
  intros Hc. split.
  - rewrite !sanitize_keep, !keep_alnum_append. f_equal.
    cbn [keep_alnum]. now rewrite Hc.
  - intros H. apply (f_equal String.length) in H.
    rewrite !string_length_append in H. cbn [String.length] in H. lia.
Qed.

Lemma sanitize_collides_witness :
  _sanitize_hostname ("auto" ++ String "-" "bot")
  = _sanitize_hostname ("auto" ++ "bot").
Proof. apply (sanitize_collides "auto" "bot" "-"). reflexivity. Defined.

End SanitizeAlgebra.

(** ** More on the static TFs *)

Section StaticTfMore.
Import Msg Node Run.

Lemma set_set_same (d : Dict.t) k v :
  Dict.set (Dict.set d k v) k v = Dict.set d k v.
Proof.
  induction d as [| [k' v'] rest IH]; cbn [Dict.set].
  - now rewrite key_eqb_refl.
  - destruct (Dict.key_eqb k' k) eqn:E; cbn [Dict.set]; rewrite E;
      [reflexivity | now rewrite IH].
Qed.

(** An exception leaves the fetch exactly when the lookup raises one the
    callback has no [except] clause for; the node is then as before and
    nothing was logged or published. *)
Theorem fetch_raises_iff buf self e :
  raised (_fetch_static_tfs buf self) = Some e <->
  buf (_tag_frame self) (_footprint_frame self) = Throws e /\
  caught e = false /\
  _fetch_static_tfs buf self = raises self [] e.
Proof.
  unfold _fetch_static_tfs.
  destruct (buf (_tag_frame self) (_footprint_frame self)) as [tr | ex].
  - cbn. split; [discriminate | intros [H _]; discriminate H].
  - split.
    + destruct ex; cbn; intros [= <-]; repeat split; reflexivity.
    + intros [[= ->] [He _]]. destruct e; try discriminate He; reflexivity.
Qed.

(** Fetching again from an unchanged buffer changes nothing: the second
    call has the same outcome as the first and leaves the node of the
    first. *)
Theorem fetch_twice_same_buffer buf self :
  _fetch_static_tfs buf (node (_fetch_static_tfs buf self))
  = _fetch_static_tfs buf self.
Proof.
  destruct self as [host mp tg md tagf fpf d tm pm pl].
  unfold _fetch_static_tfs; cbn [_tag_frame _footprint_frame].
  destruct (buf tagf fpf) as [tr | ex] eqn:Hb.
  - unfold shutdown_static_timer, with_static_tfs, with_timers, returns,
      static_tf.
    destruct tm; cbn; rewrite Hb; cbn; rewrite set_set_same; reflexivity.
  - destruct ex; cbn; rewrite Hb; reflexivity.
Qed.

(** What the buffer answers is what gets published: after a successful
    fetch the publish callback sends an edge that carries the transform
    and the stamp of the lookup unchanged, from the tag frame to the
    footprint frame of this robot, marked fixed and not static. *)
Theorem fetched_transform_is_published buf self tr :
  buf (_tag_frame self) (_footprint_frame self) = Found tr ->
  exists tf,
    In (Some tf)
       (published
          (effects (_publish_static_tfs (node (_fetch_static_tfs buf self)))))
    /\ at_transform tf = transform tr
    /\ time (origin tf) = stamp (ts_header tr)
    /\ time (target tf) = stamp (ts_header tr)
    /\ (name (origin tf), type (origin tf), robot (origin tf))
       = (_tag_frame self, TYPE_DUCKIEBOT_TAG, robot_hostname self)
    /\ (name (target tf), type (target tf), robot (target tf))
       = (_footprint_frame self, TYPE_DUCKIEBOT_FOOTPRINT, robot_hostname self)
    /\ is_fixed tf = true /\ is_static tf = false.
Proof.
  intros Hb.
  exists (static_tf self (_tag_frame self) (_footprint_frame self) tr).
  split; [| repeat split; reflexivity].
  rewrite published_publish_static.
  apply get_in_values with (k := fetch_key self).
  now apply fetch_found.
Qed.

Lemma fetched_transform_is_published_witness :
  exists tf,
    In (Some tf)
       (published
          (effects
             (_publish_static_tfs
                (node (_fetch_static_tfs (answers (Found (calibration 1 0)))
                         autobot01)))))
    /\ at_transform tf = transform (calibration 1 0).
Proof.
  destruct (fetched_transform_is_published
              (answers (Found (calibration 1 0))) autobot01 (calibration 1 0)
              eq_refl) as [tf [Hin [Htr _]]].
  exists tf. split; [exact Hin | exact Htr].
Defined.

End StaticTfMore.

(** ** Sequences of callbacks *)

Section Runs.
Import Msg Node Run.

Lemma published_app (a b : list Effect) :
  published (a ++ b) = (published a ++ published b)%list.
Proof.
  induction a as [| [m d | t | t | t] rest IH]; cbn [app published];
    now rewrite ?IH.
Qed.

Lemma destinations_app (a b : list Effect) :
  destinations (a ++ b) = (destinations a ++ destinations b)%list.
Proof.
  induction a as [| [m d | t | t | t] rest IH]; cbn [app destinations];
    now rewrite ?IH.
Qed.

(** No callback touches the attributes set from the parameters or the
    publish timer, and every message goes to [map_name]. *)
Lemma fetch_config buf self :
  config (node (_fetch_static_tfs buf self)) = config self /\
  _pub_timer (node (_fetch_static_tfs buf self)) = _pub_timer self /\
  destinations (effects (_fetch_static_tfs buf self)) = [].
Proof.
  unfold _fetch_static_tfs.
  destruct (buf (_tag_frame self) (_footprint_frame self)) as [tr | []];
    cbn; repeat split; try reflexivity;
    unfold shutdown_static_timer; cbn;
    destruct (_tf_static_timer self); reflexivity.
Qed.

Lemma publish_destinations self :
  Forall (eq (map_name self))
    (destinations (effects (_publish_static_tfs self))).
Proof.
  unfold _publish_static_tfs, returns; cbn [effects].
  induction (Dict.values (_static_tfs self)) as [| v rest IH];
    cbn [map destinations]; constructor; auto.
Qed.

Lemma fire_config ev self :
  config (node (fire ev self)) = config self /\
  _pub_timer (node (fire ev self)) = _pub_timer self /\
  Forall (eq (map_name self)) (destinations (effects (fire ev self))).
Proof.
  destruct ev as [buf | | pose_now]; cbn [fire].
  - destruct (fetch_config buf self) as [Hc [Hp Hd]].
    rewrite Hd. repeat split; auto.
  - repeat split; [apply publish_destinations].
  - unfold _cb_odometry. destruct (_pose_last self) as [pose_last |];
      [destruct (Rlt_dec _ _) |]; cbn; repeat split; repeat constructor.
Qed.

Lemma run_config evs self :
  config (fst (run evs self)) = config self /\
  _pub_timer (fst (run evs self)) = _pub_timer self /\
  Forall (eq (map_name self)) (destinations (snd (run evs self))).
Proof.
  revert self. induction evs as [| ev rest IH]; intros self; cbn [run].
  - repeat split; constructor.
  - destruct (fire_config ev self) as [Hc [Hp Hd]].
    specialize (IH (node (fire ev self))).
    destruct (run rest (node (fire ev self))) as [n es]; cbn [fst snd] in *.
    destruct IH as [IHc [IHp IHd]].
    rewrite IHc, IHp. repeat split; auto.
    rewrite destinations_app. apply Forall_app. split; [exact Hd |].
    assert (Hmap : map_name (node (fire ev self)) = map_name self).
    { unfold config in Hc. now injection Hc. }
    now rewrite <- Hmap.
Qed.

Lemma init_config veh map tag buf o :
  __init__ (Some veh) (Some map) (Some tag) buf = Ready o ->
  config (node o)
  = (veh, Sanitize._sanitize_hostname map, tag, MIN_DIST_ODOM,
     "tag/" ++ tag, veh ++ "/footprint") /\
  _pose_last (node o) = None /\
  Forall (eq (Sanitize._sanitize_hostname map)) (destinations (effects o)).
Proof.
  unfold __init__. destruct (String.eqb tag "__NOTSET__").
  - intros [= <-]. cbn. repeat split. constructor.
  - match goal with
    | |- context [_fetch_static_tfs buf ?s] => set (self := s)
    end.
    destruct (fetch_config buf self) as [Hc [_ Hd]].
    assert (Hpose : _pose_last (node (_fetch_static_tfs buf self)) = None).
    { unfold _fetch_static_tfs.
      destruct (buf (_tag_frame self) (_footprint_frame self)) as [tr | []];
        reflexivity. }
    destruct (raised (_fetch_static_tfs buf self)).
    + intros [= <-]. rewrite Hc, Hd. repeat split; [exact Hpose | constructor].
    + intros [= <-]. cbn [node effects returns].
      repeat split.
      * unfold config in *. cbn. exact Hc.
      * cbn. exact Hpose.
      * rewrite destinations_app, Hd. cbn [app].
        pose proof (publish_destinations (node (_fetch_static_tfs buf self)))
          as Hpub.
        assert (Hmap : map_name (node (_fetch_static_tfs buf self))
                       = Sanitize._sanitize_hostname map).
        { unfold config in Hc. now injection Hc. }
        now rewrite Hmap in Hpub.
Qed.

(** From [__init__] on, whatever callbacks run, the node keeps the
    configuration it was built with (hostname, sanitized map name, tag,
    threshold 0.2, the two frame names), and every message it ever hands to
    the publisher is addressed to the sanitized map name, which holds
    digits and letters only. *)
Theorem configuration_is_fixed veh map tag buf o evs :
  __init__ (Some veh) (Some map) (Some tag) buf = Ready o ->
  config (fst (run evs (node o)))
  = (veh, Sanitize._sanitize_hostname map, tag, MIN_DIST_ODOM,
     "tag/" ++ tag, veh ++ "/footprint") /\
  Forall (eq (Sanitize._sanitize_hostname map))
    (destinations (effects o ++ snd (run evs (node o)))) /\
  Sanitize.all_chars Sanitize.in_set_0_9a_zA_Z
    (Sanitize._sanitize_hostname map) = true.
Proof.
  intros Hinit.
  destruct (init_config veh map tag buf o Hinit) as [Hc [_ Hd]].
  destruct (run_config evs (node o)) as [Rc [_ Rd]].
  split; [now rewrite Rc |]. split.
  - rewrite destinations_app. apply Forall_app. split; [exact Hd |].
    assert (Hmap : map_name (node o) = Sanitize._sanitize_hostname map).
    { unfold config in Hc. now injection Hc. }
    now rewrite <- Hmap.
  - rewrite sanitize_keep. apply keep_alnum_all.
Qed.

Lemma configuration_is_fixed_witness :
  config
    (fst (run [PublishTimer; FetchTimer (answers (Found (calibration 1 0)))]
            autobot01))
  = ("autobot01", "autolab01", "42", MIN_DIST_ODOM, "tag/42",
     "autobot01/footprint").
Proof.
  apply (configuration_is_fixed "autobot01" "auto-lab_01" "42"
           (answers (Throws ConnectivityException))
           (returns autobot01 [Publish None "autolab01"])
           [PublishTimer; FetchTimer (answers (Found (calibration 1 0)))]
           init_autobot01).
Defined.

End Runs.

Section Placeholder.
Import Msg Node Run.

Lemma fetch_keeps_placeholder buf self :
  _tag_frame self <> _footprint_frame self ->
  placeholder_first self ->
  placeholder_first (node (_fetch_static_tfs buf self)).
Proof.
  destruct self as [host mp tg md tagf fpf d tm pm pl].
  unfold placeholder_first, placeholder_key, fetch_key, _fetch_static_tfs.
  cbn [_tag_frame _footprint_frame _static_tfs]. intros Hne Hshape.
  assert (Hkeys : Dict.key_eqb (fpf, tagf) (tagf, fpf) = false).
  { destruct (Dict.key_eqb _ _) eqn:E; [| reflexivity].
    apply key_eqb_eq in E. injection E as E _. now symmetry in E. }
  destruct (buf tagf fpf) as [tr | []]; cbn [node returns raises];
    try exact Hshape.
  unfold shutdown_static_timer, with_static_tfs, with_timers.
  right. eexists.
  destruct tm; cbn;
    (destruct Hshape as [-> | [tf ->]]; cbn [Dict.set]; rewrite Hkeys;
     [reflexivity | rewrite key_eqb_refl; reflexivity]).
Qed.

Lemma fire_keeps_placeholder ev self :
  _tag_frame self <> _footprint_frame self ->
  placeholder_first self ->
  _tag_frame (node (fire ev self)) <> _footprint_frame (node (fire ev self)) /\
  placeholder_first (node (fire ev self)).
Proof.
  intros Hne Hshape. split.
  - destruct (fire_config ev self) as [Hc _].
    unfold config in Hc. injection Hc as _ _ _ _ -> ->. exact Hne.
  - destruct ev as [buf | | pose_now]; cbn [fire].
    + now apply fetch_keeps_placeholder.
    + exact Hshape.
    + unfold _cb_odometry. destruct (_pose_last self) as [pose_last |];
        [destruct (Rlt_dec _ _) |]; exact Hshape.
Qed.

Lemma init_placeholder veh map tag buf o :
  __init__ (Some veh) (Some map) (Some tag) buf = Ready o ->
  "tag/" ++ tag <> veh ++ "/footprint" ->
  _tag_frame (node o) <> _footprint_frame (node o) /\
  placeholder_first (node o).
Proof.
  intros Hinit Hne. split.
  - destruct (init_config veh map tag buf o Hinit) as [Hc _].
    unfold config in Hc. injection Hc as _ _ _ _ -> ->. exact Hne.
  - revert Hinit. unfold __init__.
    destruct (String.eqb tag "__NOTSET__"); [intros [= <-]; now left |].
    match goal with
    | |- context [_fetch_static_tfs buf ?s] =>
        pose proof (fetch_keeps_placeholder buf s Hne (or_introl eq_refl))
          as Hfetch;
        destruct (raised (_fetch_static_tfs buf s)); intros [= <-];
        [exact Hfetch |]
    end.
    exact Hfetch.
Qed.

(** When the tag frame and the footprint frame have different names (they
    always have, unless the host is named like a tag), the [None] that
    [__init__] puts into [_static_tfs] is never replaced: the fetch stores
    under the reversed pair.  So from [__init__] on, after any callbacks,
    the publish callback sends [None] first, followed by at most one
    edge. *)
Theorem placeholder_is_always_published veh map tag buf o evs :
  __init__ (Some veh) (Some map) (Some tag) buf = Ready o ->
  "tag/" ++ tag <> veh ++ "/footprint" ->
  exists rest,
    published (effects (_publish_static_tfs (fst (run evs (node o)))))
    = None :: rest /\
    (List.length rest <= 1)%nat.
Proof.
  intros Hinit Hne.
  destruct (init_placeholder veh map tag buf o Hinit Hne) as [Hframes Hshape].
  clear Hinit Hne. generalize dependent (node o). clear o.
  induction evs as [| ev rest IH]; intros self Hframes Hshape; cbn [run].
  - cbn [fst]. rewrite published_publish_static. unfold Dict.values.
    destruct Hshape as [-> | [tf ->]]; cbn [List.map snd]; eexists;
      (split; [reflexivity | cbn; lia]).
  - destruct (fire_keeps_placeholder ev self Hframes Hshape) as [Hf Hs].
    specialize (IH (node (fire ev self)) Hf Hs).
    destruct (run rest (node (fire ev self))) as [n es]. exact IH.
Qed.

Lemma placeholder_is_always_published_witness :
  exists rest,
    published
      (effects
         (_publish_static_tfs
            (fst (run [FetchTimer (answers (Found (calibration 1 0)))]
                    autobot01))))
    = None :: rest.
Proof.
  destruct (placeholder_is_always_published "autobot01" "auto-lab_01" "42"
              (answers (Throws ConnectivityException))
              (returns autobot01 [Publish None "autolab01"])
              [FetchTimer (answers (Found (calibration 1 0)))]
              init_autobot01)
    as [rest [Hrest _]].
  - intros H. discriminate H.
  - exists rest. exact Hrest.
Defined.

End Placeholder.

Section Timers.
Import Msg Node Run.

(** A scheduled callback is the callback itself or nothing at all. *)
Lemma fire_if_scheduled_cases ev self :
  fire_if_scheduled ev self = fire ev self \/
  fire_if_scheduled ev self = returns self [].
Proof.
  destruct ev as [buf | | pose_now]; cbn [fire_if_scheduled fire].
  - destruct (_tf_static_timer self) as [[] |]; auto.
  - destruct (_pub_timer self) as [[] |]; auto.
  - now left.
Qed.

Lemma run_scheduled_pub_timer evs self :
  _pub_timer (fst (run_scheduled evs self)) = _pub_timer self.
Proof.
  revert self. induction evs as [| ev rest IH]; intros self;
    cbn [run_scheduled]; [reflexivity |].
  specialize (IH (node (fire_if_scheduled ev self))).
  destruct (run_scheduled rest (node (fire_if_scheduled ev self))) as [n es].
  cbn [fst] in *. rewrite IH.
  destruct (fire_if_scheduled_cases ev self) as [-> | ->]; [| reflexivity].
  now destruct (fire_config ev self) as [_ [Hp _]].
Qed.

(** Once the fetch timer is shut down nothing writes [_static_tfs]. *)
Lemma stopped_stays_stopped evs self :
  _tf_static_timer self = Some Stopped ->
  _tf_static_timer (fst (run_scheduled evs self)) = Some Stopped /\
  _static_tfs (fst (run_scheduled evs self)) = _static_tfs self.
Proof.
  revert self. induction evs as [| ev rest IH]; intros self Hstop;
    cbn [run_scheduled]; [now split |].
  assert (Hstep : _tf_static_timer (node (fire_if_scheduled ev self))
                  = Some Stopped /\
                  _static_tfs (node (fire_if_scheduled ev self))
                  = _static_tfs self).
  { destruct ev as [buf | | pose_now]; cbn [fire_if_scheduled].
    - rewrite Hstop. now split.
    - destruct (_pub_timer self) as [[] |]; now split.
    - unfold _cb_odometry. destruct (_pose_last self) as [pose_last |];
        [destruct (Rlt_dec _ _) |]; now split. }
  destruct Hstep as [Ht Hd].
  specialize (IH _ Ht).
  destruct (run_scheduled rest (node (fire_if_scheduled ev self))) as [n es].
  cbn [fst] in *. now rewrite <- Hd.
Qed.

(** The first successful fetch by the timer is the last fetch: it shuts
    the timer down, and whatever is scheduled afterwards, the dictionary
    stays as that fetch left it. *)
Theorem timer_fetch_success_is_final buf self tr evs :
  _tf_static_timer self = Some Running ->
  buf (_tag_frame self) (_footprint_frame self) = Found tr ->
  let n := fst (run_scheduled (FetchTimer buf :: evs) self) in
  _tf_static_timer n = Some Stopped /\
  _static_tfs n = _static_tfs (node (_fetch_static_tfs buf self)) /\
  Dict.get (_static_tfs n) (fetch_key self)
  = Some (Some (static_tf self (_tag_frame self) (_footprint_frame self) tr)).
Proof.
  intros Hrun Hb n. subst n. cbn [run_scheduled fire_if_scheduled].
  rewrite Hrun.
  assert (Hstop : _tf_static_timer (node (_fetch_static_tfs buf self))
                  = Some Stopped).
  { unfold _fetch_static_tfs. rewrite Hb. cbn [node returns].
    unfold shutdown_static_timer. cbn. rewrite Hrun. reflexivity. }
  destruct (stopped_stays_stopped evs _ Hstop) as [Ht Hd].
  destruct (run_scheduled evs (node (_fetch_static_tfs buf self))) as [n es].
  cbn [fst] in *. rewrite Hd. repeat split; [exact Ht |].
  now apply fetch_found.
Qed.

Lemma timer_fetch_success_is_final_witness :
  _tf_static_timer
    (fst (run_scheduled
            [FetchTimer (answers (Found (calibration 1 0)));
             FetchTimer (answers (Found (calibration 61 0)))]
            autobot01))
  = Some Stopped.
Proof.
  apply (timer_fetch_success_is_final (answers (Found (calibration 1 0)))
           autobot01 (calibration 1 0)
           [FetchTimer (answers (Found (calibration 61 0)))]
           eq_refl eq_refl).
Defined.

(** [__init__] with a tag other than the sentinel leaves both timers
    running, also when its own fetch succeeded (the timer it would shut
    down does not exist yet); and no callback ever stops the publish
    timer. *)
Theorem init_starts_both_timers veh map tag buf o evs :
  __init__ (Some veh) (Some map) (Some tag) buf = Ready o ->
  raised o = None ->
  String.eqb tag "__NOTSET__" = false ->
  _tf_static_timer (node o) = Some Running /\
  _pub_timer (fst (run_scheduled evs (node o))) = Some Running.
Proof.
  intros Hinit Hraised Htag. rewrite run_scheduled_pub_timer.
  revert Hinit. unfold __init__. rewrite Htag.
  match goal with
  | |- context [_fetch_static_tfs buf ?s] => generalize (_fetch_static_tfs buf s)
  end.
  intros fetched. destruct (raised fetched) eqn:Hr; intros [= <-].
  - rewrite Hr in Hraised. discriminate Hraised.
  - now split.
Qed.

Lemma init_starts_both_timers_witness :
  match __init__ (Some "autobot01") (Some "auto-lab_01") (Some "42")
          (answers (Found (calibration 1 0))) with
  | Ready o => _tf_static_timer (node o) = Some Running
  | Exit _ _ => False
  end.
Proof.
  apply (init_starts_both_timers "autobot01" "auto-lab_01" "42"
           (answers (Found (calibration 1 0))) _ [] eq_refl eq_refl eq_refl).
Defined.

(** With the sentinel tag [__init__] looks nothing up and publishes
    nothing, no timer exists, and afterwards the static TFs stay out of
    the picture: [_static_tfs] is never written and every message the node
    publishes is an odometry edge (not [None], not fixed). *)
Theorem unset_tag_disables_static_tfs veh map buf o evs :
  __init__ (Some veh) (Some map) (Some "__NOTSET__") buf = Ready o ->
  effects o = [] /\
  _static_tfs (fst (run_scheduled evs (node o)))
  = [((veh ++ "/footprint", "tag/__NOTSET__"), None)] /\
  Forall (fun m => exists tf, m = Some tf /\ is_fixed tf = false)
    (published (snd (run_scheduled evs (node o)))).
Proof.
  unfold __init__. cbn [String.eqb Ascii.eqb Bool.eqb]. intros [= <-].
  cbn [effects returns node]. split; [reflexivity |].
  match goal with |- context [run_scheduled evs ?s] => set (self := s) end.
  assert (Hinv : _tf_static_timer self = None /\ _pub_timer self = None /\
                 _static_tfs self
                 = [((veh ++ "/footprint", "tag/__NOTSET__"), None)])
    by (repeat split; reflexivity).
  clearbody self. revert self Hinv.
  induction evs as [| ev rest IH]; intros self [Ht [Hp Hd]];
    cbn [run_scheduled]; [split; [exact Hd | constructor] |].
  assert (Hstep :
            (_tf_static_timer (node (fire_if_scheduled ev self)) = None /\
             _pub_timer (node (fire_if_scheduled ev self)) = None /\
             _static_tfs (node (fire_if_scheduled ev self))
             = [((veh ++ "/footprint", "tag/__NOTSET__"), None)]) /\
            Forall (fun m => exists tf, m = Some tf /\ is_fixed tf = false)
              (published (effects (fire_if_scheduled ev self)))).
  { destruct ev as [b | | pose_now]; cbn [fire_if_scheduled].
    - rewrite Ht. repeat split; auto.
    - rewrite Hp. repeat split; auto.
    - unfold _cb_odometry. destruct (_pose_last self) as [pose_last |];
        [destruct (Rlt_dec _ _) |]; cbn; repeat split; auto;
        repeat constructor.
      eexists. split; reflexivity. }
  destruct Hstep as [Hinv Hpub]. specialize (IH _ Hinv).
  destruct (run_scheduled rest (node (fire_if_scheduled ev self))) as [n es].
  cbn [fst snd] in *. destruct IH as [IHd IHp]. split; [exact IHd |].
  rewrite published_app. apply Forall_app. now split.
Qed.

Lemma unset_tag_disables_static_tfs_witness :
  match __init__ (Some "autobot01") (Some "auto-lab_01") (Some "__NOTSET__")
          (answers (Found (calibration 1 0))) with
  | Ready o =>
      _static_tfs
        (fst (run_scheduled
                [PublishTimer; FetchTimer (answers (Found (calibration 1 0)))]
                (node o)))
      = [(("autobot01/footprint", "tag/__NOTSET__"), None)]
  | Exit _ _ => False
  end.
Proof.
  apply (unset_tag_disables_static_tfs "autobot01" "auto-lab_01"
           (answers (Found (calibration 1 0))) _
           [PublishTimer; FetchTimer (answers (Found (calibration 1 0)))]
           eq_refl).
Defined.

End Timers.

(** ** More on quaternions *)

Section QuaternionAlgebra.
Import Np Tr Claimed.
Local Open Scope R_scope.





End QuaternionAlgebra.

(** ** More on the odometry callback *)

Section OdometryMore.
Import Msg Np Tr Node Run Claimed.
Local Open Scope R_scope.

(** The callback behind the first call, through the gate as a boolean. *)
Lemma cb_odometry_gate self pose_last pose_now :
  _pose_last self = Some pose_last ->
  _cb_odometry self pose_now =
  returns self
    (if passes_gate self pose_last pose_now
     then [Publish (Some (odometry_tf self pose_last pose_now)) (map_name self)]
     else []).
Proof.
  intros Hlast. unfold _cb_odometry, passes_gate. rewrite Hlast.
  destruct (Rlt_dec _ _); reflexivity.
Qed.

(** A stream of odometry messages behind the first one.  The node never
    changes: [_pose_last] stays the first pose.  The edges published are
    those of the poses that pass the gate against the first pose (the
    [dist] the callback computes from the first pose is not below
    [min_dist_odom]), in order, each one the transform from the first
    pose, whatever was published in between. *)
Theorem odometry_stream_measured_from_first self pose_first poses :
  _pose_last self = Some pose_first ->
  fst (run (map OdometryMsg poses) self) = self /\
  published (snd (run (map OdometryMsg poses) self))
  = map (fun pose_now => Some (odometry_tf self pose_first pose_now))
      (filter (passes_gate self pose_first) poses).
Proof.
  intros Hlast.
  induction poses as [| p rest [IHn IHp]]; cbn [map run filter];
    [now split |].
  cbn [fire]. rewrite (cb_odometry_gate self pose_first p Hlast).
  cbn [node returns effects].
  destruct (run (map OdometryMsg rest) self) as [n es]; cbn [fst snd] in *.
  split; [exact IHn |].
  rewrite published_app, IHp.
  destruct (passes_gate self pose_first p); reflexivity.
Qed.

Lemma odometry_stream_measured_from_first_witness :
  fst (run (map OdometryMsg
              [sample 1 (3 / 10, 0, 0) no_turn; sample 2 (4 / 10, 0, 0) no_turn])
         (seen (sample 0 (0, 0, 0) no_turn)))
  = seen (sample 0 (0, 0, 0) no_turn).
Proof.
  apply (odometry_stream_measured_from_first
           (seen (sample 0 (0, 0, 0) no_turn)) (sample 0 (0, 0, 0) no_turn)
           [sample 1 (3 / 10, 0, 0) no_turn; sample 2 (4 / 10, 0, 0) no_turn]
           eq_refl).
Defined.











(** The fetch and the odometry callback do not see each other: in either
    order they leave the same node, and each has the effects and the
    exception it has on its own. *)
Theorem fetch_and_odometry_commute buf self pose_now :
  let fetched := _fetch_static_tfs buf self in
  let observed := _cb_odometry self pose_now in
  node (_cb_odometry (node fetched) pose_now)
  = node (_fetch_static_tfs buf (node observed)) /\
  effects (_cb_odometry (node fetched) pose_now) = effects observed /\
  effects (_fetch_static_tfs buf (node observed)) = effects fetched /\
  raised (_fetch_static_tfs buf (node observed)) = raised fetched.
Proof.
  destruct self as [host mp tg md tagf fpf d tm pm pl].
  unfold _fetch_static_tfs, _cb_odometry, shutdown_static_timer,
    with_static_tfs, with_timers, with_pose_last, returns, raises, static_tf,
    odometry_tf;
    cbn [_tag_frame _footprint_frame _pose_last min_dist_odom node
         _tf_static_timer robot_hostname map_name _static_tfs _pub_timer
         tag_id].
  destruct pl as [pose_last |];
    [destruct (Rlt_dec (norm (t_now_to_last pose_last pose_now)) md) |];
    destruct (buf tagf fpf) as [tr | []] eqn:Hb; destruct tm;
    cbn [_tag_frame _footprint_frame _pose_last min_dist_odom node
         _tf_static_timer robot_hostname map_name _static_tfs _pub_timer
         tag_id effects raised];
    rewrite ?Hb;
    try (destruct (Rlt_dec (norm (t_now_to_last pose_last pose_now)) md);
         [| contradiction]);
    try (destruct (Rlt_dec (norm (t_now_to_last pose_last pose_now)) md);
         [contradiction |]);
    repeat split; reflexivity.
Qed.

End OdometryMore.

(** ** [_qv_mult] *)

Section QvMult.
Import Np Tr Node Claimed.
Local Open Scope R_scope.









End QvMult.
